(** * The login slice of asa-standard (examples/backend-slice)

    A shallow embedding of [schemas.py], [repository.py], [service.py] and
    [handler.py], and the properties of the login sequence
    [LoginService.execute].

    The Python code is effectful: it calls a repository and two helper
    functions, and it raises exceptions.  It is embedded in a state-and-
    exception monad [M].  The state carries the external world the
    collaborators read and write, the counter of object identities, and a
    chronological log.  An exception does not roll the state back, exactly
    as in Python. *)

From Stdlib Require Import String ZArith List Bool Lia.
Import ListNotations.
Local Open Scope string_scope.
Local Open Scope Z_scope.

Set Implicit Arguments.

(** ** schemas.py *)

(** [class LoginRequest(BaseModel)]: two [str] fields, no further
    constraint on either of them. *)
Record LoginRequest : Type := mkLoginRequest {
  email : string;
  password : string
}.

(** [class LoginResponse(BaseModel)]. *)
Record LoginResponse : Type := mkLoginResponse {
  jwt_token : string;
  expires_in : Z
}.

(** The record a user lookup yields; [execute] reads exactly these three
    attributes of it. *)
Record User : Type := mkUser {
  id : string;
  password_hash : string;
  is_active : bool
}.

(** ** Exceptions and outcomes *)

Inductive exn : Type :=
| UserNotFoundError
| AccountLockedError
| InvalidCredentialsError
| NotImplementedError
| OtherError (cls : string).

(** How a call ends.  [Raise] is an exception raised by a [raise] statement
    of [execute] itself, [Propagate] one that escaped from a collaborator
    and went through [execute] uncaught (the code has no [try]). *)
Inductive outcome (A : Type) : Type :=
| Return (a : A)
| Raise (e : exn)
| Propagate (e : exn).

Arguments Return {A} a.
Arguments Raise {A} e.
Arguments Propagate {A} e.

(** ** The log *)

(** The three conditions [execute] tests, in the order of the source. *)
Inductive guard : Type := Existence | ActiveStatus | PasswordMatch.

(** What the log records: the construction of an object, a call to a
    collaborator with its arguments, and the evaluation of a guard with the
    truth value of the tested condition.  The log is instrumentation: no
    definition below reads it. *)
Inductive event : Type :=
| Construct (cls : string) (oid : nat)
| Call_get_user_by_email (email : string)
| Call_verify_password (plain hash : string)
| Call_update_last_login (user_id : string)
| Call_generate_jwt (user_id : string) (ttl : Z)
| Guard_evaluated (g : guard) (holds : bool).

Definition is_update_call (e : event) : bool :=
  match e with Call_update_last_login _ => true | _ => false end.

Definition is_verify_call (e : event) : bool :=
  match e with Call_verify_password _ _ => true | _ => false end.

Definition is_jwt_call (e : event) : bool :=
  match e with Call_generate_jwt _ _ => true | _ => false end.

(** The guards evaluated in a stretch of log, oldest first. *)
Fixpoint guards_of (l : list event) : list (guard * bool) :=
  match l with
  | [] => []
  | Guard_evaluated g b :: l' => (g, b) :: guards_of l'
  | _ :: l' => guards_of l'
  end.

(** The ttl arguments of the token-issuance calls in a stretch of log. *)
Fixpoint jwt_ttls (l : list event) : list Z :=
  match l with
  | [] => []
  | Call_generate_jwt _ ttl :: l' => ttl :: jwt_ttls l'
  | _ :: l' => jwt_ttls l'
  end.

(** Position of the first event satisfying [p]. *)
Fixpoint index_of (p : event -> bool) (l : list event) : option nat :=
  match l with
  | [] => None
  | e :: l' => if p e then Some O else option_map S (index_of p l')
  end.

Definition count (p : event -> bool) (l : list event) : nat :=
  length (filter p l).

(** ** The monad *)

Section Login.

(** The external world: whatever the data store and the helpers keep. *)
Variable World : Type.

Record state : Type := mkState {
  world : World;
  next_id : nat;
  log : list event
}.

Definition M (A : Type) : Type := state -> outcome A * state.

Definition ret {A} (a : A) : M A := fun s => (Return a, s).

Definition bind {A B} (m : M A) (k : A -> M B) : M B :=
  fun s =>
    match m s with
    | (Return a, s') => k a s'
    | (Raise e, s') => (Raise e, s')
    | (Propagate e, s') => (Propagate e, s')
    end.

(** The [raise] statement. *)
Definition raise {A} (e : exn) : M A := fun s => (Raise e, s).

Definition emit (e : event) : M unit :=
  fun s => (Return tt, mkState (world s) (next_id s) (log s ++ [e])).

(** Allocation of a new object: its identity is the next free one. *)
Definition alloc (cls : string) : M nat :=
  fun s => (Return (next_id s),
            mkState (world s) (S (next_id s)) (log s ++ [Construct cls (next_id s)])).

(** A collaborator is code outside [execute]: it runs on the world, and
    either returns a value or raises. *)
Definition collaborator (A : Type) : Type := World -> (exn + A) * World.

(** A call to a collaborator: the call is logged, the collaborator runs,
    and what it raises propagates. *)
Definition call {A} (e : event) (f : collaborator A) : M A :=
  fun s =>
    let (r, w) := f (world s) in
    let s' := mkState w (next_id s) (log s ++ [e]) in
    match r with
    | inl x => (Propagate x, s')
    | inr a => (Return a, s')
    end.

End Login.

Arguments ret {World A} a.
Arguments raise {World A} e.
Arguments emit {World} e.
Arguments alloc {World} cls.
Arguments call {World A} e f.
Arguments mkState {World} world next_id log.

Notation "x <- m ;; k" := (bind m (fun x => k))
  (at level 61, m at next level, right associativity).
Notation "m ;; k" := (bind m (fun _ => k))
  (at level 61, right associativity).

(** ** repository.py *)

(** What a repository class provides: the two methods [execute] calls on
    [self.repo]. *)
Record RepositoryClass (World : Type) : Type := mkRepositoryClass {
  get_user_by_email : string -> collaborator World (option User);
  update_last_login : string -> collaborator World unit
}.

(** [class LoginRepository] as repository.py defines it: both bodies are
    [raise NotImplementedError()]. *)
Definition LoginRepository (World : Type) : RepositoryClass World := {|
  get_user_by_email := fun _ w => (inl NotImplementedError, w);
  update_last_login := fun _ w => (inl NotImplementedError, w)
|}.

(** A repository object knows its class; a service object has its [repo]
    attribute.  Neither is mutated after its construction. *)
Record RepositoryObject (World : Type) : Type := mkRepositoryObject {
  repo_oid : nat;
  class_of : RepositoryClass World
}.

Record LoginService (World : Type) : Type := mkLoginService {
  service_oid : nat;
  repo : RepositoryObject World
}.

(** ** service.py and handler.py *)

Section Service.

Variable World : Type.

(** The class the name [LoginRepository] denotes where [__init__] runs.
    repository.py binds it to the placeholder above; a test double or a
    finished implementation binds it to something else. *)
Variable Repository : RepositoryClass World.

(** service.py uses [verify_password] and [generate_jwt] and defines
    neither: they are parameters here. *)
Variable verify_password : string -> string -> collaborator World bool.
Variable generate_jwt : string -> Z -> collaborator World string.

(** [LoginRepository()]. *)
Definition new_LoginRepository : M World (RepositoryObject World) :=
  o <- alloc "LoginRepository" ;;
  ret (mkRepositoryObject o Repository).

(** [LoginService()]: allocation, then [__init__], which sets
    [self.repo = LoginRepository()]. *)
Definition new_LoginService : M World (LoginService World) :=
  o <- alloc "LoginService" ;;
  r <- new_LoginRepository ;;
  ret (mkLoginService o r).

(** [LoginService.execute].  The lookup yields [None] or a user record (a
    record is a true value for [not user]).  The [emit] lines are the
    instrumentation of the three [if not ...] tests. *)
Definition execute (self : LoginService World) (request : LoginRequest)
  : M World LoginResponse :=
  user <- call (Call_get_user_by_email (email request))
               (get_user_by_email (class_of (repo self)) (email request)) ;;
  match user with
  | None =>
      emit (Guard_evaluated Existence false) ;;
      raise UserNotFoundError
  | Some user =>
      emit (Guard_evaluated Existence true) ;;
      emit (Guard_evaluated ActiveStatus (is_active user)) ;;
      if negb (is_active user) then raise AccountLockedError else
      ok <- call (Call_verify_password (password request) (password_hash user))
                 (verify_password (password request) (password_hash user)) ;;
      emit (Guard_evaluated PasswordMatch ok) ;;
      if negb ok then raise InvalidCredentialsError else
      call (Call_update_last_login (id user))
           (update_last_login (class_of (repo self)) (id user)) ;;
      token <- call (Call_generate_jwt (id user) 86400)
                    (generate_jwt (id user) 86400) ;;
      ret (mkLoginResponse token 86400)
  end.

(** [handle_login]. *)
Definition handle_login (request : LoginRequest) : M World LoginResponse :=
  service <- new_LoginService ;;
  execute service request.

(** The runs of [execute], one constructor per way out of the function,
    in the order of the source: the outcome and the final state, given
    what the collaborators answered from the worlds they were called in. *)
Inductive execute_run (self : LoginService World) (request : LoginRequest)
  (s : state World) : outcome LoginResponse -> state World -> Prop :=
| Run_lookup_raised x w1 :
    get_user_by_email (class_of (repo self)) (email request) (world s)
    = (inl x, w1) ->
    execute_run self request s (Propagate x)
      (mkState w1 (next_id s)
         (log s ++ [Call_get_user_by_email (email request)]))
| Run_user_not_found w1 :
    get_user_by_email (class_of (repo self)) (email request) (world s)
    = (inr None, w1) ->
    execute_run self request s (Raise UserNotFoundError)
      (mkState w1 (next_id s)
         (log s ++ [Call_get_user_by_email (email request);
                    Guard_evaluated Existence false]))
| Run_account_locked user w1 :
    get_user_by_email (class_of (repo self)) (email request) (world s)
    = (inr (Some user), w1) ->
    is_active user = false ->
    execute_run self request s (Raise AccountLockedError)
      (mkState w1 (next_id s)
         (log s ++ [Call_get_user_by_email (email request);
                    Guard_evaluated Existence true;
                    Guard_evaluated ActiveStatus false]))
| Run_verify_raised user w1 x w2 :
    get_user_by_email (class_of (repo self)) (email request) (world s)
    = (inr (Some user), w1) ->
    is_active user = true ->
    verify_password (password request) (password_hash user) w1 = (inl x, w2) ->
    execute_run self request s (Propagate x)
      (mkState w2 (next_id s)
         (log s ++ [Call_get_user_by_email (email request);
                    Guard_evaluated Existence true;
                    Guard_evaluated ActiveStatus true;
                    Call_verify_password (password request) (password_hash user)]))
| Run_invalid_credentials user w1 w2 :
    get_user_by_email (class_of (repo self)) (email request) (world s)
    = (inr (Some user), w1) ->
    is_active user = true ->
    verify_password (password request) (password_hash user) w1 = (inr false, w2) ->
    execute_run self request s (Raise InvalidCredentialsError)
      (mkState w2 (next_id s)
         (log s ++ [Call_get_user_by_email (email request);
                    Guard_evaluated Existence true;
                    Guard_evaluated ActiveStatus true;
                    Call_verify_password (password request) (password_hash user);
                    Guard_evaluated PasswordMatch false]))
| Run_update_raised user w1 w2 x w3 :
    get_user_by_email (class_of (repo self)) (email request) (world s)
    = (inr (Some user), w1) ->
    is_active user = true ->
    verify_password (password request) (password_hash user) w1 = (inr true, w2) ->
    update_last_login (class_of (repo self)) (id user) w2 = (inl x, w3) ->
    execute_run self request s (Propagate x)
      (mkState w3 (next_id s)
         (log s ++ [Call_get_user_by_email (email request);
                    Guard_evaluated Existence true;
                    Guard_evaluated ActiveStatus true;
                    Call_verify_password (password request) (password_hash user);
                    Guard_evaluated PasswordMatch true;
                    Call_update_last_login (id user)]))
| Run_jwt_raised user w1 w2 w3 x w4 :
    get_user_by_email (class_of (repo self)) (email request) (world s)
    = (inr (Some user), w1) ->
    is_active user = true ->
    verify_password (password request) (password_hash user) w1 = (inr true, w2) ->
    update_last_login (class_of (repo self)) (id user) w2 = (inr tt, w3) ->
    generate_jwt (id user) 86400 w3 = (inl x, w4) ->
    execute_run self request s (Propagate x)
      (mkState w4 (next_id s)
         (log s ++ [Call_get_user_by_email (email request);
                    Guard_evaluated Existence true;
                    Guard_evaluated ActiveStatus true;
                    Call_verify_password (password request) (password_hash user);
                    Guard_evaluated PasswordMatch true;
                    Call_update_last_login (id user);
                    Call_generate_jwt (id user) 86400]))
| Run_success user w1 w2 w3 token w4 :
    get_user_by_email (class_of (repo self)) (email request) (world s)
    = (inr (Some user), w1) ->
    is_active user = true ->
    verify_password (password request) (password_hash user) w1 = (inr true, w2) ->
    update_last_login (class_of (repo self)) (id user) w2 = (inr tt, w3) ->
    generate_jwt (id user) 86400 w3 = (inr token, w4) ->
    execute_run self request s (Return (mkLoginResponse token 86400))
      (mkState w4 (next_id s)
         (log s ++ [Call_get_user_by_email (email request);
                    Guard_evaluated Existence true;
                    Guard_evaluated ActiveStatus true;
                    Call_verify_password (password request) (password_hash user);
                    Guard_evaluated PasswordMatch true;
                    Call_update_last_login (id user);
                    Call_generate_jwt (id user) 86400])).

End Service.

Arguments execute_run {World} verify_password generate_jwt self request s _ _.

(** The service object [handle_login] builds from state [s], and the state
    its construction leaves. *)
Definition service_built {World} (Repository : RepositoryClass World)
  (s : state World) : LoginService World :=
  mkLoginService (next_id s) (mkRepositoryObject (S (next_id s)) Repository).

Definition state_built {World} (s : state World) : state World :=
  mkState (world s) (S (S (next_id s)))
    (log s ++ [Construct "LoginService" (next_id s);
               Construct "LoginRepository" (S (next_id s))]).

(** The events a run appended to the log. *)
Definition events_since {World} (s s' : state World) : list event :=
  skipn (length (log s)) (log s').

(** The guard that raises each of the three errors of [execute]. *)
Definition error_of (g : guard) : exn :=
  match g with
  | Existence => UserNotFoundError
  | ActiveStatus => AccountLockedError
  | PasswordMatch => InvalidCredentialsError
  end.

Definition guard_order : list guard := [Existence; ActiveStatus; PasswordMatch].

(** ** An in-memory double, for concrete runs *)

Module Double.

(** The world of the double: the identifiers whose last login was
    recorded, latest last. *)
Definition World : Type := list string.

Definition alice : User := mkUser "u1" "hash:secret" true.
Definition bob : User := mkUser "u2" "hash:hunter2" false.

Definition users : list (string * User) :=
  [("alice@example.com", alice); ("bob@example.com", bob)].

Fixpoint find_user (e : string) (l : list (string * User)) : option User :=
  match l with
  | [] => None
  | (k, u) :: l' => if String.eqb k e then Some u else find_user e l'
  end.

Definition MemoryRepository : RepositoryClass World := {|
  get_user_by_email := fun e w => (inr (find_user e users), w);
  update_last_login := fun i w => (inr tt, (w ++ [i])%list)
|}.

(** A repository class that implements the lookup and inherits
    [update_last_login] from [LoginRepository]. *)
Definition LookupOnlyRepository : RepositoryClass World := {|
  get_user_by_email := get_user_by_email MemoryRepository;
  update_last_login := update_last_login (LoginRepository World)
|}.

Definition verify_password (plain hash : string) : collaborator World bool :=
  fun w => (inr (String.eqb ("hash:" ++ plain) hash), w).

Definition generate_jwt (user_id : string) (ttl : Z) : collaborator World string :=
  fun w => (inr ("jwt." ++ user_id), w).

(** A token primitive that hands out the empty string. *)
Definition empty_jwt (user_id : string) (ttl : Z) : collaborator World string :=
  fun w => (inr "", w).

(** A repository class whose lookup fails, as when the store is away. *)
Definition DownRepository : RepositoryClass World := {|
  get_user_by_email := fun _ w => (inl (OtherError "ConnectionError"), w);
  update_last_login := update_last_login MemoryRepository
|}.

(** A repository class that keeps a journal of its lookups in the world. *)
Definition AuditRepository : RepositoryClass World := {|
  get_user_by_email :=
    fun e w => (inr (find_user e users), (w ++ [("lookup:" ++ e)%string])%list);
  update_last_login := update_last_login MemoryRepository
|}.

(** A repository class whose store takes one last login per user: a second
    update for the same identifier fails. *)
Definition OnceRepository : RepositoryClass World := {|
  get_user_by_email := get_user_by_email MemoryRepository;
  update_last_login :=
    fun i w =>
      if existsb (String.eqb i) w
      then (inl (OtherError "IntegrityError"), w)
      else (inr tt, (w ++ [i])%list)
|}.

(** Helpers that raise. *)
Definition broken_verify (plain hash : string) : collaborator World bool :=
  fun w => (inl (OtherError "ValueError"), w).

Definition broken_jwt (user_id : string) (ttl : Z) : collaborator World string :=
  fun w => (inl (OtherError "KeyError"), w).

Definition s0 : state World := mkState [] 0 [].

Definition service0 : LoginService World :=
  mkLoginService 0 (mkRepositoryObject 1 MemoryRepository).

Definition service1 : LoginService World :=
  mkLoginService 0 (mkRepositoryObject 1 LookupOnlyRepository).

Definition service2 : LoginService World :=
  mkLoginService 0 (mkRepositoryObject 1 DownRepository).

Definition service3 : LoginService World :=
  mkLoginService 0 (mkRepositoryObject 1 AuditRepository).

End Double.

(** ** Vocabulary of the properties *)

(** The guards of a run come in the order of [guard_order], without gap or
    repetition. *)
Definition in_fixed_order (gs : list (guard * bool)) : Prop :=
  exists n, map fst gs = firstn n guard_order.

(** Nothing is evaluated after a guard that failed. *)
Definition short_circuits (gs : list (guard * bool)) : Prop :=
  forall pre g post, gs = (pre ++ (g, false) :: post)%list -> post = [].

(** All three guards were evaluated and held. *)
Definition all_passed (gs : list (guard * bool)) : Prop :=
  gs = map (fun g => (g, true)) guard_order.

(** Two runs of a collaborator answer alike, and leave worlds related by
    [R]. *)
Definition alike {World A} (R : World -> World -> Prop)
  (r1 r2 : (exn + A) * World) : Prop :=
  fst r1 = fst r2 /\ R (snd r1) (snd r2).

(** A collaborator behaves the same in worlds related by [R]. *)
Definition respects {World A} (R : World -> World -> Prop)
  (f : collaborator World A) : Prop :=
  forall w1 w2, R w1 w2 -> alike R (f w1) (f w2).

(** A collaborator that leaves the world as it found it. *)
Definition read_only {World A} (f : collaborator World A) : Prop :=
  forall w, snd (f w) = w.

(** A stretch of log without its password verifications. *)
Definition outside_verify (l : list event) : list event :=
  filter (fun e => negb (is_verify_call e)) l.

(** * Properties *)

Lemma skipn_length_app {A} (l t : list A) : skipn (length l) (l ++ t) = t.
Proof.
  induction l as [|a l IH]; simpl; auto.
Qed.

Lemma events_since_app {World} (s : state World) w n t :
  events_since s (mkState w n (log s ++ t)) = t.
Proof.
  unfold events_since; simpl. apply skipn_length_app.
Qed.

Section ServiceProperties.

Variable World : Type.
Variable verify_password : string -> string -> collaborator World bool.
Variable generate_jwt : string -> Z -> collaborator World string.

(** Every run of [execute] is one of the eight of [execute_run]. *)
Lemma execute_is_run self request s :
  execute_run verify_password generate_jwt self request s
    (fst (execute verify_password generate_jwt self request s))
    (snd (execute verify_password generate_jwt self request s)).
Proof.
  unfold execute, bind, call, emit, raise, ret.
  destruct (get_user_by_email (class_of (repo self)) (email request) (world s))
    as [[x|[user|]] w1] eqn:Hget; simpl.
  - now apply Run_lookup_raised.
  - destruct (is_active user) eqn:Hact; simpl.
    + destruct (verify_password (password request) (password_hash user) w1)
        as [[x|[|]] w2] eqn:Hver; simpl.
      * rewrite <- !app_assoc; simpl. eapply Run_verify_raised; eauto.
      * destruct (update_last_login (class_of (repo self)) (id user) w2)
          as [[x|[]] w3] eqn:Hupd; simpl.
        -- rewrite <- !app_assoc; simpl. eapply Run_update_raised; eauto.
        -- destruct (generate_jwt (id user) 86400 w3) as [[x|token] w4] eqn:Hjwt;
             simpl; rewrite <- !app_assoc; simpl.
           ++ eapply Run_jwt_raised; eauto.
           ++ eapply Run_success; eauto.
      * rewrite <- !app_assoc; simpl. eapply Run_invalid_credentials; eauto.
    + rewrite <- !app_assoc; simpl. eapply Run_account_locked; eauto.
  - rewrite <- !app_assoc; simpl. now apply Run_user_not_found.
Qed.

(** The log of a run extends the log it started from, and the first thing
    [execute] does is the user lookup with the email of the request. *)
Lemma execute_starts_with_lookup self request s :
  exists w t,
    snd (execute verify_password generate_jwt self request s)
    = mkState w (next_id s)
        (log s ++ Call_get_user_by_email (email request) :: t).
Proof.
  destruct (execute_is_run self request s); eauto.
Qed.

(** [handle_login] is [execute] on a service object built for the
    occasion, whose repository is of the class that [LoginRepository]
    names. *)
Lemma handle_login_unfold Repository request s :
  handle_login Repository verify_password generate_jwt request s
  = execute verify_password generate_jwt
      (service_built Repository s) request (state_built s).
Proof.
  unfold handle_login, new_LoginService, new_LoginRepository, bind, alloc, ret.
  unfold service_built, state_built.
  simpl. now rewrite <- app_assoc.
Qed.

Ltac split_guards H :=
  repeat match type of H with
  | _ = (?pre ++ _ :: _)%list =>
      destruct pre; simpl in H; try discriminate H;
      injection H as ? H; subst; try discriminate
  end.

(** Splits a goal about a run of [execute] into the runs of [execute_run],
    and keeps those that agree with the answers assumed in the context. *)
Ltac same_answers :=
  repeat match goal with
  | H1 : ?f = _, H2 : ?f = _ |- _ =>
      rewrite H1 in H2; first [discriminate H2 | injection H2 as ?; subst]
  | H1 : is_active ?u = _, H2 : is_active ?u = _ |- _ =>
      rewrite H1 in H2; first [discriminate H2 | clear H2]
  end.

Ltac by_run self request s :=
  let Hrun := fresh "Hrun" in
  let E := fresh "E" in
  pose proof (execute_is_run self request s) as Hrun;
  destruct (execute _ _ self request s) eqn:E;
  clear E; simpl fst in *; simpl snd in *;
  destruct Hrun; same_answers; rewrite ?events_since_app.

(** Keeps, of a hypothesis that a guard is among those recorded, the cases
    that can be. *)
Ltac in_guards H :=
  simpl in H;
  repeat (destruct H as [H|H]; [try discriminate H|]);
  try contradiction;
  injection H as <-.

(** C1. For every request, [execute] takes its three guards in the order
    existence, active status, password match, each on the answer of a
    collaborator, and stops at the first that fails: no user gives
    [UserNotFoundError] whatever the rest would be, a user that is not
    active gives [AccountLockedError] without the verification being run,
    a rejected password gives [InvalidCredentialsError] without the update
    being run, and a response is returned only for an active user that was
    found and whose password the verification accepted.  The log agrees:
    each guard it records has the truth value of that answer, the guards
    come in that order, and one that failed is the last event of the run. *)
Theorem execute_guards_fixed_order self request s :
  let run := execute verify_password generate_jwt self request s in
  let t := events_since s (snd run) in
  let lookup :=
    get_user_by_email (class_of (repo self)) (email request) (world s) in
  (forall w1,
     lookup = (inr None, w1) ->
     fst run = Raise UserNotFoundError /\ world (snd run) = w1)
  /\ (forall user w1,
        lookup = (inr (Some user), w1) ->
        is_active user = false ->
        fst run = Raise AccountLockedError /\ world (snd run) = w1)
  /\ (forall user w1 w2,
        lookup = (inr (Some user), w1) ->
        is_active user = true ->
        verify_password (password request) (password_hash user) w1
        = (inr false, w2) ->
        fst run = Raise InvalidCredentialsError /\ world (snd run) = w2)
  /\ (forall r,
        fst run = Return r ->
        exists user w1 w2,
          lookup = (inr (Some user), w1)
          /\ is_active user = true
          /\ verify_password (password request) (password_hash user) w1
             = (inr true, w2))
  /\ (forall b,
        In (Existence, b) (guards_of t) ->
        exists found w1,
          lookup = (inr found, w1)
          /\ b = match found with Some _ => true | None => false end)
  /\ (forall b,
        In (ActiveStatus, b) (guards_of t) ->
        exists user w1,
          lookup = (inr (Some user), w1) /\ b = is_active user)
  /\ (forall b,
        In (PasswordMatch, b) (guards_of t) ->
        exists user w1 w2,
          lookup = (inr (Some user), w1)
          /\ is_active user = true
          /\ verify_password (password request) (password_hash user) w1
             = (inr b, w2))
  /\ in_fixed_order (guards_of t)
  /\ short_circuits (guards_of t)
  /\ (forall g, In (g, false) (guards_of t) ->
        fst run = Raise (error_of g)
        /\ exists t0, t = (t0 ++ [Guard_evaluated g false])%list)
  /\ (forall r, fst run = Return r -> all_passed (guards_of t))
  /\ (forall e, fst run = Raise e ->
        exists g, e = error_of g /\ In (g, false) (guards_of t)).
Proof.
  intros run t lookup; subst run t lookup.
  split; [intros w1 Hget; by_run self request s; split; reflexivity|].
  split; [intros user w1 Hget Hact; by_run self request s; split; reflexivity|].
  split; [intros user w1 w2 Hget Hact Hver; by_run self request s;
          split; reflexivity|].
  split.
  { intros r Hr; revert Hr.
    by_run self request s; simpl; intros Hr; try discriminate Hr. eauto 6. }
  split.
  { intros b Hin; revert Hin.
    by_run self request s; simpl; intros Hin; in_guards Hin;
      eexists _, _; (split; [eassumption | reflexivity]). }
  split.
  { intros b Hin; revert Hin.
    by_run self request s; simpl; intros Hin; in_guards Hin;
      eexists _, _; (split; [eassumption | congruence]). }
  split.
  { intros b Hin; revert Hin.
    by_run self request s; simpl; intros Hin; in_guards Hin; eauto 6. }
  destruct (execute_is_run self request s); rewrite events_since_app; simpl;
    (split; [| split; [| split; [| split]]]).
  all: try (intros r Hr; first [discriminate Hr | reflexivity]).
  all: try (intros pre g post Hs; split_guards Hs; reflexivity).
  all: try (unfold in_fixed_order; simpl;
            first [now exists 0%nat | now exists 1%nat
                  | now exists 2%nat | now exists 3%nat]).
  all: try (intros g Hin; simpl in Hin;
            repeat (destruct Hin as [Hin|Hin]; [try discriminate Hin|]);
            try contradiction;
            injection Hin as <-;
            (split; [reflexivity|
               match goal with
               | |- exists t0, ?l = _ => exists (removelast l); reflexivity
               end])).
  all: intros e He; try discriminate He; injection He as <-;
    first [ exists Existence; split; [reflexivity | simpl; tauto]
          | exists ActiveStatus; split; [reflexivity | simpl; tauto]
          | exists PasswordMatch; split; [reflexivity | simpl; tauto] ].
Qed.

(** C2. When the user lookup finds no user for the email of the request,
    [execute] raises [UserNotFoundError]: it returns no response, and the
    lookup and the failed existence guard are all it did. *)
Theorem execute_user_not_found self request s w1 :
  get_user_by_email (class_of (repo self)) (email request) (world s)
  = (inr None, w1) ->
  execute verify_password generate_jwt self request s
  = (Raise UserNotFoundError,
     mkState w1 (next_id s)
       (log s ++ [Call_get_user_by_email (email request);
                  Guard_evaluated Existence false])).
Proof.
  intros Hget. by_run self request s. reflexivity.
Qed.

(** C3. When the lookup finds a user whose [is_active] is false, [execute]
    raises [AccountLockedError], whatever the password of the request and
    whatever the verification primitive would answer: the primitive is not
    called. *)
Theorem execute_account_locked self request s user w1 :
  get_user_by_email (class_of (repo self)) (email request) (world s)
  = (inr (Some user), w1) ->
  is_active user = false ->
  execute verify_password generate_jwt self request s
  = (Raise AccountLockedError,
     mkState w1 (next_id s)
       (log s ++ [Call_get_user_by_email (email request);
                  Guard_evaluated Existence true;
                  Guard_evaluated ActiveStatus false]))
  /\ count is_verify_call
       (events_since s (snd (execute verify_password generate_jwt self request s)))
     = 0%nat.
Proof.
  intros Hget Hact. by_run self request s. split; reflexivity.
Qed.

(** C4. When the lookup finds an active user and the verification primitive
    answers that the password of the request does not match the stored
    hash, [execute] raises [InvalidCredentialsError]. *)
Theorem execute_invalid_credentials self request s user w1 w2 :
  get_user_by_email (class_of (repo self)) (email request) (world s)
  = (inr (Some user), w1) ->
  is_active user = true ->
  verify_password (password request) (password_hash user) w1 = (inr false, w2) ->
  execute verify_password generate_jwt self request s
  = (Raise InvalidCredentialsError,
     mkState w2 (next_id s)
       (log s ++ [Call_get_user_by_email (email request);
                  Guard_evaluated Existence true;
                  Guard_evaluated ActiveStatus true;
                  Call_verify_password (password request) (password_hash user);
                  Guard_evaluated PasswordMatch false])).
Proof.
  intros Hget Hact Hver. by_run self request s. reflexivity.
Qed.

(** C5, as the code has it. When the lookup finds an active user, the
    verification primitive answers that the password matches, and both
    [update_last_login] and [generate_jwt] return, [execute] returns a
    response whose [expires_in] is 86400 and whose [jwt_token] is the
    string [generate_jwt] returned for the user's id and 86400; the token
    is not empty when that string is not. *)
Theorem execute_success self request s user w1 w2 w3 token w4 :
  get_user_by_email (class_of (repo self)) (email request) (world s)
  = (inr (Some user), w1) ->
  is_active user = true ->
  verify_password (password request) (password_hash user) w1 = (inr true, w2) ->
  update_last_login (class_of (repo self)) (id user) w2 = (inr tt, w3) ->
  generate_jwt (id user) 86400 w3 = (inr token, w4) ->
  exists r,
    fst (execute verify_password generate_jwt self request s) = Return r
    /\ expires_in r = 86400
    /\ jwt_token r = token
    /\ (token <> "" -> jwt_token r <> "").
Proof.
  intros Hget Hact Hver Hupd Hjwt.
  exists (mkLoginResponse token 86400).
  by_run self request s. simpl. auto.
Qed.

(** C6, as the code has it.  A run of [execute] that ends in one of its
    three errors has not run [update_last_login]: the world it leaves is
    the one the lookup left, or the one the verification left for a
    rejected password, and so the world it started from when these two only
    read.  A run that returns a response has run [update_last_login] once,
    for the id of the user found and in the world the verification left,
    and [generate_jwt] after it, in the world the update left.  The log
    agrees: no update call in the first case, one update call and then one
    token call in the second. *)
Theorem update_last_login_only_on_success self request s :
  let run := execute verify_password generate_jwt self request s in
  let t := events_since s (snd run) in
  let lookup :=
    get_user_by_email (class_of (repo self)) (email request) (world s) in
  (forall e,
     fst run = Raise e ->
     ((exists w1, lookup = (inr None, w1) /\ world (snd run) = w1)
      \/ (exists user w1,
            lookup = (inr (Some user), w1)
            /\ is_active user = false
            /\ world (snd run) = w1)
      \/ (exists user w1 w2,
            lookup = (inr (Some user), w1)
            /\ is_active user = true
            /\ verify_password (password request) (password_hash user) w1
               = (inr false, w2)
            /\ world (snd run) = w2))
     /\ ((forall a, read_only (get_user_by_email (class_of (repo self)) a)) ->
         (forall p h, read_only (verify_password p h)) ->
         world (snd run) = world s)
     /\ (exists g, e = error_of g)
     /\ count is_update_call t = 0%nat)
  /\ (forall r,
        fst run = Return r ->
        (exists user w1 w2 w3 w4,
           lookup = (inr (Some user), w1)
           /\ is_active user = true
           /\ verify_password (password request) (password_hash user) w1
              = (inr true, w2)
           /\ update_last_login (class_of (repo self)) (id user) w2
              = (inr tt, w3)
           /\ generate_jwt (id user) 86400 w3 = (inr (jwt_token r), w4)
           /\ world (snd run) = w4)
        /\ count is_update_call t = 1%nat
        /\ count is_jwt_call t = 1%nat
        /\ exists i j,
             index_of is_update_call t = Some i
             /\ index_of is_jwt_call t = Some j
             /\ (i < j)%nat).
Proof.
  intros run t lookup; subst run t lookup. split.
  - intros e He; revert He.
    by_run self request s; simpl; intros He; try discriminate He;
      injection He as <-.
    + split; [left; eauto|].
      split; [|split; [now exists Existence | reflexivity]].
      intros Hro _. rewrite <- (Hro (email request) (world s)).
      now rewrite H.
    + split; [right; left; eauto|].
      split; [|split; [now exists ActiveStatus | reflexivity]].
      intros Hro _. rewrite <- (Hro (email request) (world s)).
      now rewrite H.
    + split; [right; right; eauto 8|].
      split; [|split; [now exists PasswordMatch | reflexivity]].
      intros Hro Hro'.
      rewrite <- (Hro (email request) (world s)), H. simpl.
      rewrite <- (Hro' (password request) (password_hash user) w1).
      now rewrite H1.
  - intros r Hr; revert Hr.
    by_run self request s; simpl; intros Hr; try discriminate Hr.
    injection Hr as <-. simpl.
    split; [exists user, w1, w2, w3, w4; repeat split; assumption|].
    split; [reflexivity|]. split; [reflexivity|].
    exists 5%nat, 6%nat. repeat split. lia.
Qed.

(** C7. When [execute] returns a response, the ttl it passed to
    [generate_jwt] is the [expires_in] of the response, and both are 86400:
    the token of the response is what [generate_jwt] returned for the id of
    the user found and that ttl, in the world [update_last_login] left.
    The log agrees: one token call, with that ttl. *)
Theorem execute_ttl_is_expires_in self request s r :
  fst (execute verify_password generate_jwt self request s) = Return r ->
  (exists user w1 w2 w3 w4,
     get_user_by_email (class_of (repo self)) (email request) (world s)
     = (inr (Some user), w1)
     /\ is_active user = true
     /\ verify_password (password request) (password_hash user) w1
        = (inr true, w2)
     /\ update_last_login (class_of (repo self)) (id user) w2 = (inr tt, w3)
     /\ generate_jwt (id user) (expires_in r) w3 = (inr (jwt_token r), w4)
     /\ world (snd (execute verify_password generate_jwt self request s)) = w4)
  /\ expires_in r = 86400
  /\ jwt_ttls (events_since s (snd (execute verify_password generate_jwt self request s)))
     = [expires_in r].
Proof.
  intros Hr. revert Hr.
  by_run self request s; simpl; intros Hr; try discriminate Hr.
  injection Hr as <-. simpl.
  split; [exists user, w1, w2, w3, w4; repeat split; assumption|].
  split; reflexivity.
Qed.

(** Two runs of [execute] on services with repositories of one class, from
    worlds in which the collaborators behave the same, end the same way and
    did the same things, whatever the identities of the objects, the
    identity counters and the logs. *)
Lemma execute_independent (R : World -> World -> Prop) self1 self2 request s1 s2 :
  class_of (repo self1) = class_of (repo self2) ->
  (forall e, respects R (get_user_by_email (class_of (repo self1)) e)) ->
  (forall i, respects R (update_last_login (class_of (repo self1)) i)) ->
  (forall p h, respects R (verify_password p h)) ->
  (forall i ttl, respects R (generate_jwt i ttl)) ->
  R (world s1) (world s2) ->
  fst (execute verify_password generate_jwt self1 request s1)
  = fst (execute verify_password generate_jwt self2 request s2)
  /\ R (world (snd (execute verify_password generate_jwt self1 request s1)))
       (world (snd (execute verify_password generate_jwt self2 request s2)))
  /\ events_since s1 (snd (execute verify_password generate_jwt self1 request s1))
     = events_since s2 (snd (execute verify_password generate_jwt self2 request s2)).
Proof.
  intros Hclass Hget Hupd Hver Hjwt HR.
  unfold execute, bind, call, emit, raise, ret.
  rewrite <- Hclass.
  destruct (Hget (email request) _ _ HR) as [Eg Rg].
  destruct (get_user_by_email (class_of (repo self1)) (email request) (world s1))
    as [a1 w1],
    (get_user_by_email (class_of (repo self1)) (email request) (world s2))
    as [a2 w2].
  simpl in Eg, Rg. subst a2.
  destruct a1 as [x|[u|]]; simpl;
    [now rewrite !events_since_app | | now rewrite <- !app_assoc, !events_since_app].
  destruct (is_active u); simpl;
    [| now rewrite <- !app_assoc, !events_since_app].
  destruct (Hver (password request) (password_hash u) _ _ Rg) as [Ev Rv].
  destruct (verify_password (password request) (password_hash u) w1) as [b1 v1],
           (verify_password (password request) (password_hash u) w2) as [b2 v2].
  simpl in Ev, Rv. subst b2.
  destruct b1 as [x|[|]]; simpl;
    [now rewrite <- !app_assoc, !events_since_app |
    | now rewrite <- !app_assoc, !events_since_app].
  destruct (Hupd (id u) _ _ Rv) as [Eu Ru].
  destruct (update_last_login (class_of (repo self1)) (id u) v1) as [c1 u1],
           (update_last_login (class_of (repo self1)) (id u) v2) as [c2 u2].
  simpl in Eu, Ru. subst c2.
  destruct c1 as [x|[]]; simpl;
    [now rewrite <- !app_assoc, !events_since_app |].
  destruct (Hjwt (id u) 86400 _ _ Ru) as [Ej Rj].
  destruct (generate_jwt (id u) 86400 u1) as [d1 j1],
           (generate_jwt (id u) 86400 u2) as [d2 j2].
  simpl in Ej, Rj. subst d2.
  destruct d1 as [x|token]; simpl;
    now rewrite <- !app_assoc, !events_since_app.
Qed.

(** What a run of [handle_login] adds to the log: the construction of its
    two objects, then what [execute] adds.  It takes two identities. *)
Lemma handle_login_constructs Repository request s :
  events_since s
    (snd (handle_login Repository verify_password generate_jwt request s))
  = Construct "LoginService" (next_id s)
    :: Construct "LoginRepository" (S (next_id s))
    :: events_since (state_built s)
         (snd (execute verify_password generate_jwt
                 (service_built Repository s) request (state_built s)))
  /\ next_id (snd (handle_login Repository verify_password generate_jwt request s))
     = S (S (next_id s)).
Proof.
  rewrite handle_login_unfold.
  destruct (execute_is_run (service_built Repository s) request (state_built s)).
  all: rewrite events_since_app; unfold state_built; simpl;
    rewrite <- app_assoc; rewrite events_since_app; split; reflexivity.
Qed.

(** C10. A request whose email or password is the empty string is a
    request like any other: [execute] runs the user lookup for its email
    and goes by the answer, and so does [handle_login] once it has built
    its service.  What the lookup raises goes through, no user gives
    [UserNotFoundError], a user that is not active gives
    [AccountLockedError], and for an active user the verification is run
    on the password as it is: rejected it gives [InvalidCredentialsError],
    accepted it gives a response when the update and the token primitive
    return. *)
Theorem empty_credentials_reach_lookup Repository self s e p :
  e = "" \/ p = "" ->
  class_of (repo self) = Repository ->
  let request := mkLoginRequest e p in
  let run := execute verify_password generate_jwt self request s in
  let handled :=
    handle_login Repository verify_password generate_jwt request s in
  let lookup := get_user_by_email Repository e (world s) in
  (fst handled = fst run /\ world (snd handled) = world (snd run))
  /\ (forall x w1,
        lookup = (inl x, w1) ->
        fst run = Propagate x /\ world (snd run) = w1)
  /\ (forall w1,
        lookup = (inr None, w1) ->
        fst run = Raise UserNotFoundError /\ world (snd run) = w1)
  /\ (forall user w1,
        lookup = (inr (Some user), w1) ->
        is_active user = false ->
        fst run = Raise AccountLockedError /\ world (snd run) = w1)
  /\ (forall user w1 w2,
        lookup = (inr (Some user), w1) ->
        is_active user = true ->
        verify_password p (password_hash user) w1 = (inr false, w2) ->
        fst run = Raise InvalidCredentialsError /\ world (snd run) = w2)
  /\ (forall user w1 w2 w3 token w4,
        lookup = (inr (Some user), w1) ->
        is_active user = true ->
        verify_password p (password_hash user) w1 = (inr true, w2) ->
        update_last_login Repository (id user) w2 = (inr tt, w3) ->
        generate_jwt (id user) 86400 w3 = (inr token, w4) ->
        fst run = Return (mkLoginResponse token 86400)
        /\ world (snd run) = w4)
  /\ (exists t,
        events_since s (snd run) = Call_get_user_by_email e :: t).
Proof.
  intros _ Hclass request run handled lookup;
    subst request run handled lookup. subst Repository.
  split.
  { rewrite handle_login_unfold.
    destruct (@execute_independent eq
                (service_built (class_of (repo self)) s) self
                (mkLoginRequest e p) (state_built s) s) as (Eo & Ew & _);
      try reflexivity.
    - intros a w1 w2 ->. split; reflexivity.
    - intros i w1 w2 ->. split; reflexivity.
    - intros q h w1 w2 ->. split; reflexivity.
    - intros i ttl w1 w2 ->. split; reflexivity.
    - split; assumption. }
  split; [intros x w1 Hget; by_run self (mkLoginRequest e p) s; simpl in *; same_answers;
          split; reflexivity|].
  split; [intros w1 Hget; by_run self (mkLoginRequest e p) s; simpl in *; same_answers;
          split; reflexivity|].
  split; [intros user w1 Hget Hact; by_run self (mkLoginRequest e p) s; simpl in *; same_answers;
          split; reflexivity|].
  split; [intros user w1 w2 Hget Hact Hver; by_run self (mkLoginRequest e p) s; simpl in *; same_answers;
          split; reflexivity|].
  split; [intros user w1 w2 w3 token w4 Hget Hact Hver Hupd Hjwt;
          by_run self (mkLoginRequest e p) s; simpl in *; same_answers; split; reflexivity|].
  destruct (execute_starts_with_lookup self (mkLoginRequest e p) s)
    as (w & t & ->).
  exists t. apply events_since_app.
Qed.

(** C9, as the code has it.  Two invocations of [handle_login] with the
    same request, from worlds in which the lookup, the verification,
    [update_last_login] and the token primitive behave the same, have the
    same outcome and make the same calls, whatever identity counters and
    logs they start from: each builds a service object and a repository
    object of its own. *)
Theorem handle_login_independent Repository (R : World -> World -> Prop)
  request s1 s2 :
  (forall e, respects R (get_user_by_email Repository e)) ->
  (forall i, respects R (update_last_login Repository i)) ->
  (forall p h, respects R (verify_password p h)) ->
  (forall i ttl, respects R (generate_jwt i ttl)) ->
  R (world s1) (world s2) ->
  let r1 := handle_login Repository verify_password generate_jwt request s1 in
  let r2 := handle_login Repository verify_password generate_jwt request s2 in
  fst r1 = fst r2
  /\ R (world (snd r1)) (world (snd r2))
  /\ (exists t,
        events_since s1 (snd r1)
        = Construct "LoginService" (next_id s1)
          :: Construct "LoginRepository" (S (next_id s1)) :: t
        /\ events_since s2 (snd r2)
          = Construct "LoginService" (next_id s2)
            :: Construct "LoginRepository" (S (next_id s2)) :: t)
  /\ next_id (snd r1) = S (S (next_id s1))
  /\ next_id (snd r2) = S (S (next_id s2)).
Proof.
  intros Hget Hupd Hver Hjwt HR r1 r2; subst r1 r2.
  destruct (handle_login_constructs Repository request s1) as (E1 & N1).
  destruct (handle_login_constructs Repository request s2) as (E2 & N2).
  rewrite E1, E2, N1, N2, !handle_login_unfold.
  destruct (@execute_independent R
              (service_built Repository s1) (service_built Repository s2)
              request (state_built s1) (state_built s2)
              eq_refl Hget Hupd Hver Hjwt HR) as (Eo & Rw & Et).
  rewrite Et.
  repeat split; try assumption.
  eexists; split; reflexivity.
Qed.

(** ** The other ways out of [execute] *)

(** X1. An exception of the user lookup goes through [execute] unchanged:
    no guard is evaluated and no other collaborator is called. *)
Theorem execute_lookup_error_propagates self request s x w1 :
  get_user_by_email (class_of (repo self)) (email request) (world s)
  = (inl x, w1) ->
  execute verify_password generate_jwt self request s
  = (Propagate x,
     mkState w1 (next_id s)
       (log s ++ [Call_get_user_by_email (email request)])).
Proof.
  intros Hget. by_run self request s. reflexivity.
Qed.

(** X2. An exception of [verify_password] goes through [execute]
    unchanged, and neither [update_last_login] nor [generate_jwt] is
    called. *)
Theorem execute_verify_error_propagates self request s user w1 x w2 :
  get_user_by_email (class_of (repo self)) (email request) (world s)
  = (inr (Some user), w1) ->
  is_active user = true ->
  verify_password (password request) (password_hash user) w1 = (inl x, w2) ->
  let run := execute verify_password generate_jwt self request s in
  fst run = Propagate x
  /\ world (snd run) = w2
  /\ guards_of (events_since s (snd run))
     = [(Existence, true); (ActiveStatus, true)]
  /\ count is_update_call (events_since s (snd run)) = 0%nat
  /\ count is_jwt_call (events_since s (snd run)) = 0%nat.
Proof.
  intros Hget Hact Hver run; subst run.
  by_run self request s. repeat split.
Qed.

(** X3. An exception of [update_last_login] ends the login: it goes
    through [execute] unchanged after all three guards held, no token is
    asked for and no response is returned. *)
Theorem execute_update_error_aborts self request s user w1 w2 x w3 :
  get_user_by_email (class_of (repo self)) (email request) (world s)
  = (inr (Some user), w1) ->
  is_active user = true ->
  verify_password (password request) (password_hash user) w1 = (inr true, w2) ->
  update_last_login (class_of (repo self)) (id user) w2 = (inl x, w3) ->
  let run := execute verify_password generate_jwt self request s in
  fst run = Propagate x
  /\ world (snd run) = w3
  /\ all_passed (guards_of (events_since s (snd run)))
  /\ count is_jwt_call (events_since s (snd run)) = 0%nat.
Proof.
  intros Hget Hact Hver Hupd run; subst run.
  by_run self request s. repeat split.
Qed.

(** X4. An exception of [generate_jwt] goes through [execute] unchanged,
    and comes too late for the last login: [update_last_login] has run,
    once, and the world [generate_jwt] leaves is the one that update
    produced, not the one before it. *)
Theorem execute_jwt_error_after_update self request s user w1 w2 w3 x w4 :
  get_user_by_email (class_of (repo self)) (email request) (world s)
  = (inr (Some user), w1) ->
  is_active user = true ->
  verify_password (password request) (password_hash user) w1 = (inr true, w2) ->
  update_last_login (class_of (repo self)) (id user) w2 = (inr tt, w3) ->
  generate_jwt (id user) 86400 w3 = (inl x, w4) ->
  let run := execute verify_password generate_jwt self request s in
  fst run = Propagate x
  /\ world (snd run) = w4
  /\ count is_update_call (events_since s (snd run)) = 1%nat
  /\ In (Call_update_last_login (id user)) (events_since s (snd run)).
Proof.
  intros Hget Hact Hver Hupd Hjwt run; subst run.
  by_run self request s. repeat split. simpl. tauto.
Qed.

(** X5. A response comes only out of a complete run: when [execute]
    returns [r], the lookup found an active user, the verification answered
    true, [update_last_login] returned, and [generate_jwt], called for that
    user's id and 86400 in the world the update left, returned the token of
    [r]; the final world is the one [generate_jwt] left. *)
Theorem execute_return_inversion self request s r :
  fst (execute verify_password generate_jwt self request s) = Return r ->
  exists user w1 w2 w3 w4,
    get_user_by_email (class_of (repo self)) (email request) (world s)
    = (inr (Some user), w1)
    /\ is_active user = true
    /\ verify_password (password request) (password_hash user) w1
       = (inr true, w2)
    /\ update_last_login (class_of (repo self)) (id user) w2 = (inr tt, w3)
    /\ generate_jwt (id user) 86400 w3 = (inr (jwt_token r), w4)
    /\ expires_in r = 86400
    /\ world (snd (execute verify_password generate_jwt self request s)) = w4.
Proof.
  intros Hr. revert Hr.
  by_run self request s; simpl; intros Hr; try discriminate Hr.
  injection Hr as <-. simpl.
  exists user, w1, w2, w3, w4. repeat split; assumption.
Qed.

(** X6. Each of the three errors of [execute] has one cause: the lookup
    returned no user for [UserNotFoundError], a user that is not active for
    [AccountLockedError], and an active user whose password the
    verification rejected for [InvalidCredentialsError]. *)
Theorem execute_raise_inversion self request s e :
  fst (execute verify_password generate_jwt self request s) = Raise e ->
  (e = UserNotFoundError
   /\ exists w1,
        get_user_by_email (class_of (repo self)) (email request) (world s)
        = (inr None, w1))
  \/ (e = AccountLockedError
      /\ exists user w1,
           get_user_by_email (class_of (repo self)) (email request) (world s)
           = (inr (Some user), w1)
           /\ is_active user = false)
  \/ (e = InvalidCredentialsError
      /\ exists user w1 w2,
           get_user_by_email (class_of (repo self)) (email request) (world s)
           = (inr (Some user), w1)
           /\ is_active user = true
           /\ verify_password (password request) (password_hash user) w1
              = (inr false, w2)).
Proof.
  intros He. revert He.
  by_run self request s; simpl; intros He; try discriminate He;
    injection He as <-.
  - left. split; [reflexivity|]. eauto.
  - right; left. split; [reflexivity|]. eauto.
  - right; right. split; [reflexivity|]. eauto 6.
Qed.

(** X7. [execute] raises nothing else of its own: an exception that is not
    one of its three errors was raised by a collaborator, by the lookup, or
    by the verification for an active user, or by [update_last_login] after
    a successful verification, or by [generate_jwt] after the update. *)
Theorem execute_propagate_inversion self request s x :
  fst (execute verify_password generate_jwt self request s) = Propagate x ->
  (exists w1,
     get_user_by_email (class_of (repo self)) (email request) (world s)
     = (inl x, w1))
  \/ exists user w1,
       get_user_by_email (class_of (repo self)) (email request) (world s)
       = (inr (Some user), w1)
       /\ is_active user = true
       /\ ((exists w2,
              verify_password (password request) (password_hash user) w1
              = (inl x, w2))
           \/ exists w2,
                verify_password (password request) (password_hash user) w1
                = (inr true, w2)
                /\ ((exists w3,
                       update_last_login (class_of (repo self)) (id user) w2
                       = (inl x, w3))
                    \/ exists w3 w4,
                         update_last_login (class_of (repo self)) (id user) w2
                         = (inr tt, w3)
                         /\ generate_jwt (id user) 86400 w3 = (inl x, w4))).
Proof.
  intros Hx. revert Hx.
  by_run self request s; simpl; intros Hx; try discriminate Hx;
    injection Hx as <-.
  - left. eauto.
  - right. exists user, w1. repeat split; try assumption. left. eauto.
  - right. exists user, w1. repeat split; try assumption.
    right. exists w2. split; [assumption|]. left. eauto.
  - right. exists user, w1. repeat split; try assumption.
    right. exists w2. split; [assumption|]. right. eauto.
Qed.

(** X9. The password of the request reaches [verify_password] and nothing
    else: two requests with the same email, whose passwords the
    verification treats alike for the user that the lookup finds, have the
    same outcome, leave the same world and make the same calls outside the
    verification. *)
Theorem execute_password_only_verified self request1 request2 s :
  email request1 = email request2 ->
  (forall user w1,
     get_user_by_email (class_of (repo self)) (email request1) (world s)
     = (inr (Some user), w1) ->
     verify_password (password request1) (password_hash user) w1
     = verify_password (password request2) (password_hash user) w1) ->
  let run1 := execute verify_password generate_jwt self request1 s in
  let run2 := execute verify_password generate_jwt self request2 s in
  fst run1 = fst run2
  /\ world (snd run1) = world (snd run2)
  /\ outside_verify (events_since s (snd run1))
     = outside_verify (events_since s (snd run2)).
Proof.
  intros Hemail Hsame run1 run2; subst run1 run2.
  unfold execute, bind, call, emit, raise, ret.
  rewrite <- Hemail.
  destruct (get_user_by_email (class_of (repo self)) (email request1) (world s))
    as [[x|[u|]] w1] eqn:G; simpl.
  - repeat split.
  - destruct (is_active u); simpl; [|repeat split].
    rewrite <- (Hsame u w1 eq_refl).
    destruct (verify_password (password request1) (password_hash u) w1)
      as [[x|[|]] w2]; simpl.
    + repeat split. now rewrite <- !app_assoc, !events_since_app.
    + destruct (update_last_login (class_of (repo self)) (id u) w2)
        as [[x|[]] w3]; simpl.
      * repeat split. now rewrite <- !app_assoc, !events_since_app.
      * destruct (generate_jwt (id u) 86400 w3) as [[x|token] w4]; simpl;
          repeat split; now rewrite <- !app_assoc, !events_since_app.
    + repeat split. now rewrite <- !app_assoc, !events_since_app.
  - repeat split.
Qed.

(** X10. [handle_login] adds nothing to [execute] but the construction of
    its two objects: on any service whose repository is of the class that
    [LoginRepository] names, and from any state with the same world,
    [execute] has the same outcome, leaves the same world and logs the same
    events. *)
Theorem handle_login_is_execute Repository self request s s' :
  class_of (repo self) = Repository ->
  world s' = world s ->
  let run := handle_login Repository verify_password generate_jwt request s in
  let run' := execute verify_password generate_jwt self request s' in
  fst run = fst run'
  /\ world (snd run) = world (snd run')
  /\ events_since s (snd run)
     = Construct "LoginService" (next_id s)
       :: Construct "LoginRepository" (S (next_id s))
       :: events_since s' (snd run').
Proof.
  intros Hclass Hworld run run'; subst run run'.
  destruct (handle_login_constructs Repository request s) as (E & _).
  rewrite E, handle_login_unfold.
  destruct (@execute_independent eq (service_built Repository s) self request
              (state_built s) s') as (Eo & Ew & Et).
  - now rewrite Hclass.
  - intros e w1 w2 ->. split; reflexivity.
  - intros i w1 w2 ->. split; reflexivity.
  - intros p h w1 w2 ->. split; reflexivity.
  - intros i ttl w1 w2 ->. split; reflexivity.
  - now rewrite Hworld.
  - rewrite Eo, Ew, Et. repeat split.
Qed.

(** X13. While [update_last_login] is the placeholder of repository.py, no
    login succeeds, whatever the lookup, the verification and the token
    primitive do: [execute] never returns a response and never asks for a
    token. *)
Theorem placeholder_update_blocks_login self request s :
  update_last_login (class_of (repo self))
  = update_last_login (LoginRepository World) ->
  (forall r, fst (execute verify_password generate_jwt self request s) <> Return r)
  /\ count is_jwt_call
       (events_since s (snd (execute verify_password generate_jwt self request s)))
     = 0%nat.
Proof.
  intros Hupd.
  by_run self request s; simpl; split; try reflexivity;
    try (intros r Hr; discriminate Hr).
  all: exfalso;
    match goal with
    | H : update_last_login _ _ _ = (inr tt, _) |- _ =>
        rewrite Hupd in H; discriminate H
    end.
Qed.

End ServiceProperties.

(** C8. Both methods of the [LoginRepository] of repository.py raise
    [NotImplementedError] on every call, so with that class every run of
    [execute] and of [handle_login] ends in [NotImplementedError] at the
    lookup: no guard is evaluated, nothing else is called and the world is
    left as it was. *)
Theorem LoginRepository_not_implemented (World : Type)
  (verify_password : string -> string -> collaborator World bool)
  (generate_jwt : string -> Z -> collaborator World string) :
  (forall e w,
     get_user_by_email (LoginRepository World) e w = (inl NotImplementedError, w))
  /\ (forall i w,
       update_last_login (LoginRepository World) i w = (inl NotImplementedError, w))
  /\ (forall self request s,
       class_of (repo self) = LoginRepository World ->
       execute verify_password generate_jwt self request s
       = (Propagate NotImplementedError,
          mkState (world s) (next_id s)
            (log s ++ [Call_get_user_by_email (email request)])))
  /\ (forall request s,
       let r := handle_login (LoginRepository World)
                  verify_password generate_jwt request s in
       fst r = Propagate NotImplementedError
       /\ events_since s (snd r)
          = [Construct "LoginService" (next_id s);
             Construct "LoginRepository" (S (next_id s));
             Call_get_user_by_email (email request)]
       /\ guards_of (events_since s (snd r)) = []
       /\ world (snd r) = world s).
Proof.
  split; [reflexivity|]. split; [reflexivity|]. split.
  - intros self request s Hclass.
    unfold execute, bind, call. rewrite Hclass. reflexivity.
  - intros request s r; subst r.
    rewrite handle_login_unfold.
    unfold execute, bind, call, state_built; simpl.
    rewrite <- app_assoc; simpl. rewrite events_since_app.
    repeat split.
Qed.

(** ** Concrete runs *)

Import Double.

(** C1 at the double: bob is found and is not active, so his login ends
    at the second guard, though the password is his. *)
Lemma execute_guards_fixed_order_witness :
  let request := mkLoginRequest "bob@example.com" "hunter2" in
  let run := execute verify_password generate_jwt service0 request s0 in
  (get_user_by_email (class_of (repo service0)) (email request) (world s0)
   = (inr (Some bob), [])
   /\ is_active bob = false)
  /\ fst run = Raise AccountLockedError
  /\ world (snd run) = [].
Proof.
  split; [split; reflexivity|].
  destruct (@execute_guards_fixed_order World verify_password generate_jwt
              service0 (mkLoginRequest "bob@example.com" "hunter2") s0)
    as (_ & Hlocked & _).
  apply (Hlocked bob []); reflexivity.
Defined.

(** C2 at the double: nobody is registered under this email. *)
Lemma execute_user_not_found_witness :
  let request := mkLoginRequest "nobody@example.com" "secret" in
  get_user_by_email (class_of (repo service0)) (email request) (world s0)
  = (inr None, [])
  /\ execute verify_password generate_jwt service0 request s0
     = (Raise UserNotFoundError,
        mkState [] 0 [Call_get_user_by_email "nobody@example.com";
                      Guard_evaluated Existence false]).
Proof.
  split; [reflexivity|].
  apply (@execute_user_not_found World verify_password generate_jwt service0
           (mkLoginRequest "nobody@example.com" "secret") s0 []).
  reflexivity.
Defined.

(** C3 at the double: bob is not active, and the password is his. *)
Lemma execute_account_locked_witness :
  let request := mkLoginRequest "bob@example.com" "hunter2" in
  (get_user_by_email (class_of (repo service0)) (email request) (world s0)
   = (inr (Some bob), [])
   /\ is_active bob = false)
  /\ fst (execute verify_password generate_jwt service0 request s0)
     = Raise AccountLockedError
  /\ count is_verify_call
       (events_since s0
          (snd (execute verify_password generate_jwt service0 request s0)))
     = 0%nat.
Proof.
  split; [split; reflexivity|].
  destruct (@execute_account_locked World verify_password generate_jwt service0
              (mkLoginRequest "bob@example.com" "hunter2") s0 bob []
              eq_refl eq_refl) as [Hrun Hcount].
  split; [now rewrite Hrun | exact Hcount].
Defined.

(** C4 at the double: alice is active, the password is not hers. *)
Lemma execute_invalid_credentials_witness :
  let request := mkLoginRequest "alice@example.com" "guess" in
  (get_user_by_email (class_of (repo service0)) (email request) (world s0)
   = (inr (Some alice), [])
   /\ is_active alice = true
   /\ verify_password (password request) (password_hash alice) []
      = (inr false, []))
  /\ fst (execute verify_password generate_jwt service0 request s0)
     = Raise InvalidCredentialsError.
Proof.
  split; [repeat split|].
  now rewrite (@execute_invalid_credentials World verify_password generate_jwt
                 service0 (mkLoginRequest "alice@example.com" "guess") s0
                 alice [] [] eq_refl eq_refl eq_refl).
Defined.

(** C5 as the specification words it does not hold.  Alice is active and
    her password matches; with a token primitive that returns the empty
    string the response carries an empty token, and with a repository class
    that inherits [update_last_login] from [LoginRepository] no response
    is returned at all. *)
Lemma execute_success_counterexample :
  let request := mkLoginRequest "alice@example.com" "secret" in
  (get_user_by_email (class_of (repo service0)) (email request) (world s0)
   = (inr (Some alice), [])
   /\ is_active alice = true
   /\ verify_password (password request) (password_hash alice) []
      = (inr true, []))
  /\ fst (execute verify_password empty_jwt service0 request s0)
     = Return (mkLoginResponse "" 86400)
  /\ ~ (exists r,
          fst (execute verify_password empty_jwt service0 request s0) = Return r
          /\ expires_in r = 86400 /\ jwt_token r <> "")
  /\ get_user_by_email (class_of (repo service1)) (email request) (world s0)
     = (inr (Some alice), [])
  /\ fst (execute verify_password generate_jwt service1 request s0)
     = Propagate NotImplementedError
  /\ ~ (exists r,
          fst (execute verify_password generate_jwt service1 request s0)
          = Return r).
Proof.
  split; [repeat split|]. split; [reflexivity|]. split.
  - intros (r & Hr & _ & Htoken). vm_compute in Hr.
    injection Hr as <-. now apply Htoken.
  - split; [reflexivity|]. split; [reflexivity|].
    intros (r & Hr). vm_compute in Hr. discriminate Hr.
Qed.

(** C5 at the double: alice logs in with her password. *)
Lemma execute_success_witness :
  let request := mkLoginRequest "alice@example.com" "secret" in
  (get_user_by_email (class_of (repo service0)) (email request) (world s0)
   = (inr (Some alice), [])
   /\ is_active alice = true
   /\ verify_password (password request) (password_hash alice) []
      = (inr true, [])
   /\ update_last_login (class_of (repo service0)) (id alice) []
      = (inr tt, ["u1"])
   /\ generate_jwt (id alice) 86400 ["u1"] = (inr "jwt.u1", ["u1"]))
  /\ exists r,
       fst (execute verify_password generate_jwt service0 request s0) = Return r
       /\ expires_in r = 86400
       /\ jwt_token r = "jwt.u1"
       /\ ("jwt.u1" <> "" -> jwt_token r <> "").
Proof.
  split; [repeat split|].
  apply (@execute_success World verify_password generate_jwt service0
           (mkLoginRequest "alice@example.com" "secret") s0
           alice [] [] ["u1"] "jwt.u1" ["u1"]);
    reflexivity.
Defined.

(** C6 as the specification words it does not hold.  With a repository
    that keeps a journal of its lookups, a login for an unknown email ends
    in [UserNotFoundError] without any update, and the world is not the one
    the run started from. *)
Lemma update_last_login_only_on_success_counterexample :
  let request := mkLoginRequest "nobody@example.com" "secret" in
  let run := execute verify_password generate_jwt service3 request s0 in
  fst run = Raise UserNotFoundError
  /\ count is_update_call (events_since s0 (snd run)) = 0%nat
  /\ world s0 = []
  /\ world (snd run) = ["lookup:nobody@example.com"]
  /\ world (snd run) <> world s0.
Proof.
  repeat split. discriminate.
Qed.

(** C6 at the double, whose lookup and verification only read: a wrong
    password leaves the world of [s0] untouched, and alice's own password
    gets her last login recorded before the token is made. *)
Lemma update_last_login_only_on_success_witness :
  let wrong := mkLoginRequest "alice@example.com" "guess" in
  let right := mkLoginRequest "alice@example.com" "secret" in
  let failed := execute verify_password generate_jwt service0 wrong s0 in
  let passed := execute verify_password generate_jwt service0 right s0 in
  (fst failed = Raise InvalidCredentialsError
   /\ world (snd failed) = world s0
   /\ count is_update_call (events_since s0 (snd failed)) = 0%nat)
  /\ (fst passed = Return (mkLoginResponse "jwt.u1" 86400)
      /\ exists user w1 w2 w3 w4,
           get_user_by_email (class_of (repo service0)) (email right) (world s0)
           = (inr (Some user), w1)
           /\ is_active user = true
           /\ verify_password (password right) (password_hash user) w1
              = (inr true, w2)
           /\ update_last_login (class_of (repo service0)) (id user) w2
              = (inr tt, w3)
           /\ generate_jwt (id user) 86400 w3 = (inr "jwt.u1", w4)
           /\ world (snd passed) = w4).
Proof.
  split.
  - split; [reflexivity|].
    destruct (@update_last_login_only_on_success World verify_password
                generate_jwt service0
                (mkLoginRequest "alice@example.com" "guess") s0)
      as [Hfail _].
    destruct (Hfail InvalidCredentialsError eq_refl)
      as (_ & Hworld & _ & Hcount).
    split; [apply Hworld; intros; intro; reflexivity | exact Hcount].
  - split; [reflexivity|].
    destruct (@update_last_login_only_on_success World verify_password
                generate_jwt service0
                (mkLoginRequest "alice@example.com" "secret") s0)
      as [_ Hpass].
    destruct (Hpass (mkLoginResponse "jwt.u1" 86400) eq_refl) as [Hchain _].
    exact Hchain.
Defined.

(** C7 at the double: alice's successful login. *)
Lemma execute_ttl_is_expires_in_witness :
  let request := mkLoginRequest "alice@example.com" "secret" in
  let run := execute verify_password generate_jwt service0 request s0 in
  let r := mkLoginResponse "jwt.u1" 86400 in
  fst run = Return r
  /\ (exists user w1 w2 w3 w4,
        get_user_by_email (class_of (repo service0)) (email request) (world s0)
        = (inr (Some user), w1)
        /\ is_active user = true
        /\ verify_password (password request) (password_hash user) w1
           = (inr true, w2)
        /\ update_last_login (class_of (repo service0)) (id user) w2
           = (inr tt, w3)
        /\ generate_jwt (id user) (expires_in r) w3 = (inr (jwt_token r), w4)
        /\ world (snd run) = w4)
  /\ expires_in r = 86400
  /\ jwt_ttls (events_since s0 (snd run)) = [expires_in r].
Proof.
  split; [reflexivity|].
  apply (@execute_ttl_is_expires_in World verify_password generate_jwt service0
           (mkLoginRequest "alice@example.com" "secret") s0
           (mkLoginResponse "jwt.u1" 86400)).
  reflexivity.
Defined.

(** C10 at the double: the request with both fields empty is looked up,
    and nobody is registered under the empty email. *)
Lemma empty_credentials_reach_lookup_witness :
  let request := mkLoginRequest "" "" in
  (("" = "" \/ "" = "")
   /\ class_of (repo service0) = MemoryRepository
   /\ get_user_by_email MemoryRepository "" (world s0) = (inr None, []))
  /\ fst (execute verify_password generate_jwt service0 request s0)
     = Raise UserNotFoundError
  /\ fst (handle_login MemoryRepository verify_password generate_jwt request s0)
     = Raise UserNotFoundError.
Proof.
  split; [repeat split; left; reflexivity|].
  destruct (@empty_credentials_reach_lookup World verify_password generate_jwt
              MemoryRepository service0 s0 "" ""
              (or_introl eq_refl) eq_refl)
    as ((Ehandled & _) & _ & Hnone & _).
  destruct (Hnone [] eq_refl) as [Hrun _].
  split; [exact Hrun | now rewrite Ehandled].
Defined.

(** C9 as the specification words it does not hold.  With a store that
    takes one last login per user, the lookup, the verification and the
    token primitive answer the same in every world, and a second login
    of alice does not end as her first did. *)
Lemma handle_login_independent_counterexample :
  let request := mkLoginRequest "alice@example.com" "secret" in
  let first :=
    handle_login OnceRepository verify_password generate_jwt request s0 in
  let second :=
    handle_login OnceRepository verify_password generate_jwt request (snd first) in
  (forall e, respects (fun _ _ => True) (get_user_by_email OnceRepository e))
  /\ (forall p h, respects (fun _ _ => True) (verify_password p h))
  /\ (forall i ttl, respects (fun _ _ => True) (generate_jwt i ttl))
  /\ fst first = Return (mkLoginResponse "jwt.u1" 86400)
  /\ fst second = Propagate (OtherError "IntegrityError")
  /\ fst first <> fst second.
Proof.
  split; [intros e w1 w2 _; split; [reflexivity | exact I]|].
  split; [intros p h w1 w2 _; split; [reflexivity | exact I]|].
  split; [intros i ttl w1 w2 _; split; [reflexivity | exact I]|].
  split; [reflexivity|]. split; [reflexivity|].
  vm_compute. discriminate.
Qed.

(** C9 at the double, whose collaborators answer the same in every world:
    a login of alice after an earlier login of hers. *)
Lemma handle_login_independent_witness :
  let request := mkLoginRequest "alice@example.com" "secret" in
  let s1 := snd (handle_login MemoryRepository verify_password generate_jwt
                   request s0) in
  fst (handle_login MemoryRepository verify_password generate_jwt request s0)
  = fst (handle_login MemoryRepository verify_password generate_jwt request s1).
Proof.
  intros request s1.
  apply (@handle_login_independent World verify_password generate_jwt
           MemoryRepository (fun _ _ => True) request s0 s1).
  - intros e w1 w2 _. split; [reflexivity | exact I].
  - intros i w1 w2 _. split; [reflexivity | exact I].
  - intros p h w1 w2 _. split; [reflexivity | exact I].
  - intros i ttl w1 w2 _. split; [reflexivity | exact I].
  - exact I.
Defined.

(** X1 at the double: the store is away. *)
Lemma execute_lookup_error_propagates_witness :
  let request := mkLoginRequest "alice@example.com" "secret" in
  get_user_by_email (class_of (repo service2)) (email request) (world s0)
  = (inl (OtherError "ConnectionError"), [])
  /\ execute verify_password generate_jwt service2 request s0
     = (Propagate (OtherError "ConnectionError"),
        mkState [] 0 [Call_get_user_by_email "alice@example.com"]).
Proof.
  split; [reflexivity|].
  apply (@execute_lookup_error_propagates World verify_password generate_jwt
           service2 (mkLoginRequest "alice@example.com" "secret") s0
           (OtherError "ConnectionError") []).
  reflexivity.
Defined.

(** X2 at the double: the verification raises for alice. *)
Lemma execute_verify_error_propagates_witness :
  let request := mkLoginRequest "alice@example.com" "secret" in
  let run := execute broken_verify generate_jwt service0 request s0 in
  fst run = Propagate (OtherError "ValueError")
  /\ world (snd run) = []
  /\ guards_of (events_since s0 (snd run))
     = [(Existence, true); (ActiveStatus, true)]
  /\ count is_update_call (events_since s0 (snd run)) = 0%nat
  /\ count is_jwt_call (events_since s0 (snd run)) = 0%nat.
Proof.
  apply (@execute_verify_error_propagates World broken_verify generate_jwt
           service0 (mkLoginRequest "alice@example.com" "secret") s0
           alice [] (OtherError "ValueError") []);
    reflexivity.
Defined.

(** X3 at the double: alice's password is right, the update is the
    placeholder's. *)
Lemma execute_update_error_aborts_witness :
  let request := mkLoginRequest "alice@example.com" "secret" in
  let run := execute verify_password generate_jwt service1 request s0 in
  fst run = Propagate NotImplementedError
  /\ world (snd run) = []
  /\ all_passed (guards_of (events_since s0 (snd run)))
  /\ count is_jwt_call (events_since s0 (snd run)) = 0%nat.
Proof.
  apply (@execute_update_error_aborts World verify_password generate_jwt
           service1 (mkLoginRequest "alice@example.com" "secret") s0
           alice [] [] NotImplementedError []);
    reflexivity.
Defined.

(** X4 at the double: the token primitive raises, and alice's last login
    is in the world all the same. *)
Lemma execute_jwt_error_after_update_witness :
  let request := mkLoginRequest "alice@example.com" "secret" in
  let run := execute verify_password broken_jwt service0 request s0 in
  fst run = Propagate (OtherError "KeyError")
  /\ world (snd run) = ["u1"]
  /\ count is_update_call (events_since s0 (snd run)) = 1%nat
  /\ In (Call_update_last_login "u1") (events_since s0 (snd run)).
Proof.
  apply (@execute_jwt_error_after_update World verify_password broken_jwt
           service0 (mkLoginRequest "alice@example.com" "secret") s0
           alice [] [] ["u1"] (OtherError "KeyError") ["u1"]);
    reflexivity.
Defined.

(** X5 at the double: alice's successful login, read backwards. *)
Lemma execute_return_inversion_witness :
  let request := mkLoginRequest "alice@example.com" "secret" in
  fst (execute verify_password generate_jwt service0 request s0)
  = Return (mkLoginResponse "jwt.u1" 86400)
  /\ exists user w1 w2 w3 w4,
       get_user_by_email (class_of (repo service0)) (email request) (world s0)
       = (inr (Some user), w1)
       /\ is_active user = true
       /\ verify_password (password request) (password_hash user) w1
          = (inr true, w2)
       /\ update_last_login (class_of (repo service0)) (id user) w2
          = (inr tt, w3)
       /\ generate_jwt (id user) 86400 w3 = (inr "jwt.u1", w4)
       /\ 86400 = 86400
       /\ world (snd (execute verify_password generate_jwt service0 request s0))
          = w4.
Proof.
  split; [reflexivity|].
  apply (@execute_return_inversion World verify_password generate_jwt service0
           (mkLoginRequest "alice@example.com" "secret") s0
           (mkLoginResponse "jwt.u1" 86400)).
  reflexivity.
Defined.

(** X6 at the double: bob's [AccountLockedError]. *)
Lemma execute_raise_inversion_witness :
  let request := mkLoginRequest "bob@example.com" "hunter2" in
  fst (execute verify_password generate_jwt service0 request s0)
  = Raise AccountLockedError
  /\ exists user w1,
       get_user_by_email (class_of (repo service0)) (email request) (world s0)
       = (inr (Some user), w1)
       /\ is_active user = false.
Proof.
  split; [reflexivity|].
  destruct (@execute_raise_inversion World verify_password generate_jwt service0
              (mkLoginRequest "bob@example.com" "hunter2") s0
              AccountLockedError eq_refl)
    as [[He _]|[[_ H]|[He _]]];
    [discriminate He | exact H | discriminate He].
Defined.

(** X7 at the double: the [NotImplementedError] of a login of alice comes
    from a collaborator. *)
Lemma execute_propagate_inversion_witness :
  let request := mkLoginRequest "alice@example.com" "secret" in
  fst (execute verify_password generate_jwt service1 request s0)
  = Propagate NotImplementedError
  /\ ((exists w1,
         get_user_by_email (class_of (repo service1)) (email request) (world s0)
         = (inl NotImplementedError, w1))
      \/ exists user w1,
           get_user_by_email (class_of (repo service1)) (email request) (world s0)
           = (inr (Some user), w1)
           /\ is_active user = true
           /\ ((exists w2,
                  verify_password (password request) (password_hash user) w1
                  = (inl NotImplementedError, w2))
               \/ exists w2,
                    verify_password (password request) (password_hash user) w1
                    = (inr true, w2)
                    /\ ((exists w3,
                           update_last_login (class_of (repo service1)) (id user) w2
                           = (inl NotImplementedError, w3))
                        \/ exists w3 w4,
                             update_last_login (class_of (repo service1)) (id user) w2
                             = (inr tt, w3)
                             /\ generate_jwt (id user) 86400 w3
                                = (inl NotImplementedError, w4)))).
Proof.
  split; [reflexivity|].
  apply (@execute_propagate_inversion World verify_password generate_jwt
           service1 (mkLoginRequest "alice@example.com" "secret") s0
           NotImplementedError).
  reflexivity.
Defined.

(** X9 at the double: two wrong passwords for alice. *)
Lemma execute_password_only_verified_witness :
  let request1 := mkLoginRequest "alice@example.com" "guess" in
  let request2 := mkLoginRequest "alice@example.com" "wrong" in
  let run1 := execute verify_password generate_jwt service0 request1 s0 in
  let run2 := execute verify_password generate_jwt service0 request2 s0 in
  fst run1 = fst run2
  /\ world (snd run1) = world (snd run2)
  /\ outside_verify (events_since s0 (snd run1))
     = outside_verify (events_since s0 (snd run2)).
Proof.
  apply (@execute_password_only_verified World verify_password generate_jwt
           service0 (mkLoginRequest "alice@example.com" "guess")
           (mkLoginRequest "alice@example.com" "wrong") s0).
  - reflexivity.
  - intros user w1 Hget. injection Hget as <- <-. reflexivity.
Defined.

(** X10 at the double: [handle_login] from [s0], and [execute] from a
    state with another counter and another log. *)
Lemma handle_login_is_execute_witness :
  let request := mkLoginRequest "alice@example.com" "secret" in
  let s' := mkState [] 7 [Call_get_user_by_email "bob@example.com"] in
  let run := handle_login MemoryRepository verify_password generate_jwt request s0 in
  let run' := execute verify_password generate_jwt service0 request s' in
  fst run = fst run'
  /\ world (snd run) = world (snd run')
  /\ events_since s0 (snd run)
     = Construct "LoginService" 0
       :: Construct "LoginRepository" 1
       :: events_since s' (snd run').
Proof.
  apply (@handle_login_is_execute World verify_password generate_jwt
           MemoryRepository service0
           (mkLoginRequest "alice@example.com" "secret") s0
           (mkState [] 7 [Call_get_user_by_email "bob@example.com"]));
    reflexivity.
Defined.

(** X13 at the double: the lookup works, the update is the
    placeholder's. *)
Lemma placeholder_update_blocks_login_witness :
  let request := mkLoginRequest "alice@example.com" "secret" in
  update_last_login (class_of (repo service1))
  = update_last_login (LoginRepository World)
  /\ (forall r,
        fst (execute verify_password generate_jwt service1 request s0)
        <> Return r)
  /\ count is_jwt_call
       (events_since s0
          (snd (execute verify_password generate_jwt service1 request s0)))
     = 0%nat.
Proof.
  split; [reflexivity|].
  apply (@placeholder_update_blocks_login World verify_password generate_jwt
           service1 (mkLoginRequest "alice@example.com" "secret") s0).
  reflexivity.
Defined.
